(** * Space operations: a shallow embedding of [scripts/space_operations.py]

    The script is a thin command-line client of the Hugging Face hub.  Its
    behaviour is made of three things only: which remote call is issued,
    what is printed on which stream, and what is returned (or which exit
    status the process ends with).  The embedding therefore runs every
    function in a small output-and-exception monad whose log records the
    remote calls next to the two output streams. *)

From stdpp Require Import base option list strings pretty gmap.

Local Open Scope string_scope.
Local Open Scope Z_scope.

(** ** Python values *)

(** The scalar values the hub client stores in the data attributes of the
    objects it returns: [None], booleans, integers and strings.  A time
    stamp is kept as the text [str()] renders it to, which is the only way
    the script reads one. *)
Inductive pyval :=
| VNone
| VBool (b : bool)
| VInt (n : Z)
| VStr (s : string).

#[global] Instance pyval_eq_dec : EqDecision pyval.
Proof. solve_decision. Defined.

(** [str(v)] on a scalar. *)
Definition py_str (v : pyval) : string :=
  match v with
  | VNone => "None"
  | VBool true => "True"
  | VBool false => "False"
  | VInt n => pretty n
  | VStr s => s
  end.

(** Truth value of an [Optional[str]]: [None] and the empty string are
    false, every other string is true. *)
Definition truthy (o : option string) : bool :=
  match o with
  | None => false
  | Some s => negb (String.eqb s "")
  end.

(** A dictionary literal, in insertion order (the order [json.dumps]
    prints it in). *)
Definition dict := list (string * pyval).

Fixpoint dict_get (d : dict) (k : string) : option pyval :=
  match d with
  | [] => None
  | (k', v) :: d' => if String.eqb k' k then Some v else dict_get d' k
  end.

(** Truth value of an [Optional[Dict]]: [None] and the empty dictionary are
    false. *)
Definition truthy_dict (o : option dict) : bool :=
  match o with
  | None => false
  | Some [] => false
  | Some (_ :: _) => true
  end.

(** What the script hands to [json.dumps]. *)
Inductive json :=
| JNull
| JDict (d : dict)
| JList (l : list dict).

Definition json_of (o : option dict) : json :=
  match o with
  | Some d => JDict d
  | None => JNull
  end.

(** ** Objects of the hub client *)

(** A [SpaceRuntime] object: its data attributes by name.  An attribute
    that the remote response did not carry is not in the map. *)
Record SpaceRuntime := { rt_attrs : gmap string pyval }.

(** A [SpaceInfo] object.  [space_runtime] is the attribute [runtime]:
    [None] when the object has no such attribute, [Some None] when the
    attribute holds Python's [None], [Some (Some r)] when it holds a
    runtime object. *)
Record SpaceInfo := {
  space_attrs : gmap string pyval;
  space_runtime : option (option SpaceRuntime)
}.

(** ** Exceptions *)

(** The subclasses of [Exception] the script can meet.  [HfHubHTTPError]
    is the hub client's HTTP error, [AttributeError] is raised by an
    unguarded attribute read, [OtherException] stands for every other
    subclass of [Exception].  What is not an [Exception] (a keyboard
    interrupt) is outside the model, except [SystemExit], which is an
    outcome of its own below. *)
Inductive exn :=
| HfHubHTTPError (msg : string)
| AttributeError (cls name : string)
| OtherException (msg : string).

(** [str(e)], as interpolated in the diagnostics. *)
Definition exn_str (e : exn) : string :=
  match e with
  | HfHubHTTPError msg => msg
  | AttributeError cls name =>
      "'" +:+ cls +:+ "' object has no attribute '" +:+ name +:+ "'"
  | OtherException msg => msg
  end.

(** ** Remote requests and the log *)

Inductive request :=
| ReqListSpaces (author search : option string) (limit : Z) (full : bool)
| ReqSpaceInfo (repo_id : string)
| ReqRestartSpace (repo_id : string)
| ReqPauseSpace (repo_id : string)
| ReqGetSpaceRuntime (repo_id : string).

(** What a run leaves behind, in order: lines on the two streams and the
    calls made through an [HfApi] handle (with the token the handle was
    built with). *)
Inductive event :=
| Stdout (line : string)
| Stderr (line : string)
| Remote (token : option string) (req : request).

Definition is_remote (ev : event) : bool :=
  match ev with
  | Remote _ _ => true
  | _ => false
  end.

(** The number of remote calls in a log. *)
Definition remote_calls (log : list event) : nat :=
  length (filter (λ ev, is_remote ev = true) log).

(** ** The monad *)

(** A statement ends normally, raises an [Exception], or raises
    [SystemExit] (which [except Exception] does not catch). *)
Inductive outcome (A : Type) :=
| Return (a : A)
| Raise (e : exn)
| Exit (code : Z).
Arguments Return {A} a.
Arguments Raise {A} e.
Arguments Exit {A} code.

Definition M (A : Type) : Type := outcome A * list event.

Definition ret {A} (a : A) : M A := (Return a, []).

Definition bind {A B} (m : M A) (k : A → M B) : M B :=
  match m with
  | (Return a, log) => let '(o, log') := k a in (o, (log ++ log')%list)
  | (Raise e, log) => (Raise e, log)
  | (Exit c, log) => (Exit c, log)
  end.

#[global] Instance M_ret : MRet M := @ret.
#[global] Instance M_bind : MBind M := λ A B k m, bind m k.

Definition raise {A} (e : exn) : M A := (Raise e, []).
Definition sys_exit {A} (code : Z) : M A := (Exit code, []).
Definition emit (ev : event) : M unit := (Return (), [ev]).
Definition print (line : string) : M unit := emit (Stdout line).
Definition eprint (line : string) : M unit := emit (Stderr line).

(** [try: body except Exception as e: handler e].  The handler chooses by
    the class of [e] where the script has several [except] clauses. *)
Definition try_except {A} (body : M A) (handler : exn → M A) : M A :=
  match body with
  | (Raise e, log) => let '(o, log') := handler e in (o, (log ++ log')%list)
  | other => other
  end.

Definition value {A} (m : M A) : outcome A := fst m.
Definition log_of {A} (m : M A) : list event := snd m.

(** [hasattr(obj, name)] and [obj.name] on the data attributes of an
    object of class [cls]. *)
Definition hasattr (attrs : gmap string pyval) (name : string) : bool :=
  bool_decide (is_Some (attrs !! name)).

Definition getattr (cls : string) (attrs : gmap string pyval) (name : string)
  : M pyval :=
  match attrs !! name with
  | Some v => mret v
  | None => raise (AttributeError cls name)
  end.

(** [obj.name if hasattr(obj, name) else default]. *)
Definition getattr_or (cls : string) (attrs : gmap string pyval)
    (name : string) (default : pyval) : M pyval :=
  if hasattr attrs name then getattr cls attrs name else mret default.

(** ** The hub client *)

(** An [HfApi] handle: what each method does when called.  [list_spaces]
    returns a lazy iterable, given here by the items it yields and the
    exception, if any, that ends the iteration (an exception raised by the
    call itself is the case of no item).  The other methods either raise
    or return. *)
Record HfApi := {
  api_list_spaces :
    option string → option string → Z → bool → list SpaceInfo * option exn;
  api_space_info : string → exn + SpaceInfo;
  api_restart_space : string → exn + SpaceRuntime;
  api_pause_space : string → exn + SpaceRuntime;
  api_get_space_runtime : string → exn + SpaceRuntime
}.

(** A call that raises or returns, logged. *)
Definition call {A} (token : option string) (req : request) (r : exn + A)
  : M A :=
  emit (Remote token req) ;;
  match r with
  | inl e => raise e
  | inr a => mret a
  end.

Section Script.

(** [HfApi(token=token)]: the handle the hub client builds for a token.
    Building a handle stores the token and calls nothing. *)
Variable hub : option string → HfApi.

(** ** restart_space, pause_space *)

Definition restart_space (space_id : string) (token : option string) : M bool :=
  if negb (truthy token) then
    eprint "Error: Token is required to restart a space." ;;
    mret false
  else
    let api := hub token in
    try_except
      (call token (ReqRestartSpace space_id) (api_restart_space api space_id) ;;
       print ("Successfully restarted space: " +:+ space_id) ;;
       mret true)
      (λ e,
        match e with
        | HfHubHTTPError _ =>
            eprint ("Error restarting space: " +:+ exn_str e) ;; mret false
        | _ =>
            eprint ("Unexpected error: " +:+ exn_str e) ;; mret false
        end).

Definition pause_space (space_id : string) (token : option string) : M bool :=
  if negb (truthy token) then
    eprint "Error: Token is required to pause a space." ;;
    mret false
  else
    let api := hub token in
    try_except
      (call token (ReqPauseSpace space_id) (api_pause_space api space_id) ;;
       print ("Successfully paused space: " +:+ space_id) ;;
       mret true)
      (λ e,
        match e with
        | HfHubHTTPError _ =>
            eprint ("Error pausing space: " +:+ exn_str e) ;; mret false
        | _ =>
            eprint ("Unexpected error: " +:+ exn_str e) ;; mret false
        end).

(** ** Building the records *)

(** [hasattr(x, name)] where [x] is [None] or a runtime object. *)
Definition hasattr_runtime (x : option SpaceRuntime) (name : string) : bool :=
  match x with
  | Some r => hasattr (rt_attrs r) name
  | None => false
  end.

(** [space.runtime.name if hasattr(space, 'runtime') and
    hasattr(space.runtime, name) else None]. *)
Definition runtime_attr_or_none (space : SpaceInfo) (name : string) : M pyval :=
  match space_runtime space with
  | Some x =>
      if hasattr_runtime x name then
        match x with
        | Some r => getattr "SpaceRuntime" (rt_attrs r) name
        | None => raise (AttributeError "NoneType" name)
        end
      else mret VNone
  | None => mret VNone
  end.

(** [str(space.lastModified) if hasattr(space, 'lastModified') else None]. *)
Definition last_modified_of (space : SpaceInfo) : M pyval :=
  if hasattr (space_attrs space) "lastModified" then
    v ← getattr "SpaceInfo" (space_attrs space) "lastModified";
    mret (VStr (py_str v))
  else mret VNone.

(** The dictionary [list_spaces] builds for one item (lines 64-72). *)
Definition space_dict (space : SpaceInfo) : M dict :=
  let a := space_attrs space in
  id ← getattr "SpaceInfo" a "id";
  author ← getattr "SpaceInfo" a "author";
  sha ← getattr "SpaceInfo" a "sha";
  last_modified ← last_modified_of space;
  private ← getattr_or "SpaceInfo" a "private" (VBool false);
  likes ← getattr_or "SpaceInfo" a "likes" (VInt 0);
  sdk ← getattr_or "SpaceInfo" a "sdk" VNone;
  mret [("id", id); ("author", author); ("sha", sha);
        ("last_modified", last_modified); ("private", private);
        ("likes", likes); ("sdk", sdk)].

(** The dictionary [get_space_info] builds (lines 98-109). *)
Definition info_dict (space : SpaceInfo) : M dict :=
  let a := space_attrs space in
  id ← getattr "SpaceInfo" a "id";
  author ← getattr "SpaceInfo" a "author";
  sha ← getattr "SpaceInfo" a "sha";
  last_modified ← last_modified_of space;
  private ← getattr_or "SpaceInfo" a "private" (VBool false);
  likes ← getattr_or "SpaceInfo" a "likes" (VInt 0);
  sdk ← getattr_or "SpaceInfo" a "sdk" VNone;
  sdk_version ← getattr_or "SpaceInfo" a "sdk_version" VNone;
  runtime ← runtime_attr_or_none space "stage";
  hardware ← runtime_attr_or_none space "hardware";
  mret [("id", id); ("author", author); ("sha", sha);
        ("last_modified", last_modified); ("private", private);
        ("likes", likes); ("sdk", sdk); ("sdk_version", sdk_version);
        ("runtime", runtime); ("hardware", hardware)].

(** [str(runtime)], the text the hub client renders a runtime object to. *)
Variable str_runtime : SpaceRuntime → string.

(** The dictionary [get_space_runtime] builds (lines 197-203). *)
Definition runtime_dict (runtime : SpaceRuntime) : M dict :=
  let a := rt_attrs runtime in
  stage ← getattr "SpaceRuntime" a "stage";
  hardware ← getattr_or "SpaceRuntime" a "hardware" VNone;
  requested_hardware ← getattr_or "SpaceRuntime" a "requested_hardware" VNone;
  sleep_time ← getattr_or "SpaceRuntime" a "sleep_time" VNone;
  mret [("stage", stage); ("hardware", hardware);
        ("requested_hardware", requested_hardware);
        ("sleep_time", sleep_time);
        ("raw_data", VStr (str_runtime runtime))].

(** ** list_spaces *)

(** The [for space in spaces] loop over a lazy iterable: one dictionary per
    item yielded, then the exception that ends the iteration, if any. *)
Fixpoint for_spaces (items : list SpaceInfo) (failure : option exn)
    (results : list dict) : M (list dict) :=
  match items with
  | [] =>
      match failure with
      | Some e => raise e
      | None => mret results
      end
  | space :: rest =>
      d ← space_dict space;
      for_spaces rest failure (results ++ [d])%list
  end.

Definition list_spaces (author search : option string) (limit : Z)
    (token : option string) : M (list dict) :=
  let api := hub token in
  try_except
    (emit (Remote token (ReqListSpaces author search limit true)) ;;
     let '(items, failure) := api_list_spaces api author search limit true in
     for_spaces items failure [])
    (λ e, eprint ("Error listing spaces: " +:+ exn_str e) ;; mret []).

(** ** get_space_info *)

Definition get_space_info (space_id : string) (token : option string)
  : M (option dict) :=
  let api := hub token in
  try_except
    (space ← call token (ReqSpaceInfo space_id) (api_space_info api space_id);
     info ← info_dict space;
     mret (Some info))
    (λ e,
      match e with
      | HfHubHTTPError _ =>
          eprint ("Error getting space info: " +:+ exn_str e) ;; mret None
      | _ =>
          eprint ("Unexpected error: " +:+ exn_str e) ;; mret None
      end).

(** ** get_space_runtime *)

Definition get_space_runtime (space_id : string) (token : option string)
  : M (option dict) :=
  let api := hub token in
  try_except
    (runtime ← call token (ReqGetSpaceRuntime space_id)
                 (api_get_space_runtime api space_id);
     runtime_info ← runtime_dict runtime;
     mret (Some runtime_info))
    (λ e,
      match e with
      | HfHubHTTPError _ =>
          eprint ("Error getting space runtime: " +:+ exn_str e) ;; mret None
      | _ =>
          eprint ("Unexpected error: " +:+ exn_str e) ;; mret None
      end).

(** ** list_user_spaces *)

Definition list_user_spaces (username : string) (token : option string)
  : M (list dict) :=
  list_spaces (Some username) None 100 token.

(** ** get_token *)

(** [os.environ]. *)
Variable environ : gmap string string.

(** [a or b] on two [Optional[str]] already evaluated. *)
Definition py_or (a b : option string) : option string :=
  if truthy a then a else b.

Definition get_token : M (option string) :=
  let token := py_or (environ !! "HF_TOKEN") (environ !! "HUGGINGFACE_TOKEN") in
  (if negb (truthy token) then
     eprint "Warning: No HF_TOKEN or HUGGINGFACE_TOKEN found in environment." ;;
     eprint "Some operations may require authentication."
   else mret ()) ;;
  mret token.

(** ** main *)

(** The namespace [parse_args] returns: the global [--token] flag and the
    subcommand with its own arguments, [None] when no subcommand was
    given. *)
Inductive Command :=
| CmdList (author search : option string) (limit : Z)
| CmdInfo (space_id : string)
| CmdRestart (space_id : string)
| CmdPause (space_id : string)
| CmdRuntime (space_id : string)
| CmdUser (username : string).

Record Namespace := {
  args_token : option string;
  args_command : option Command
}.

(** [json.dumps(v, indent=2, ensure_ascii=False)] and the text
    [parser.print_help()] prints. *)
Variable json_dumps : json → string.
Variable format_help : string.

(** [args.token or get_token()]: the right operand runs only when the left
    one is false. *)
Definition resolve_token (flag : option string) : M (option string) :=
  if truthy flag then mret flag else get_token.

(** The body of [main] after [parser.parse_args()]. *)
Definition main (args : Namespace) : M unit :=
  match args_command args with
  | None => print format_help ;; sys_exit 1
  | Some cmd =>
      token ← resolve_token (args_token args);
      match cmd with
      | CmdList author search limit =>
          results ← list_spaces author search limit token;
          print (json_dumps (JList results))
      | CmdInfo space_id =>
          info ← get_space_info space_id token;
          if truthy_dict info then print (json_dumps (json_of info))
          else sys_exit 1
      | CmdRestart space_id =>
          success ← restart_space space_id token;
          sys_exit (if success : bool then 0 else 1)
      | CmdPause space_id =>
          success ← pause_space space_id token;
          sys_exit (if success : bool then 0 else 1)
      | CmdRuntime space_id =>
          runtime ← get_space_runtime space_id token;
          if truthy_dict runtime then print (json_dumps (json_of runtime))
          else sys_exit 1
      | CmdUser username =>
          results ← list_user_spaces username token;
          print (json_dumps (JList results))
      end
  end.

(** The status the process ends with: 0 when [main] returns, the argument
    of [sys.exit], 1 for an exception nobody caught. *)
Definition exit_status (o : outcome unit) : Z :=
  match o with
  | Return _ => 0
  | Exit code => code
  | Raise _ => 1
  end.

End Script.

(** ** Sample objects and hubs

    Concrete inputs on which the theorems below are exercised. *)

(** A space whose response carried only the three fields read without a
    guard. *)
Definition bare_space : SpaceInfo :=
  {| space_attrs :=
       {[ "id" := VStr "alice/demo"; "author" := VStr "alice";
          "sha" := VStr "0a1b2c" ]};
     space_runtime := None |}.

(** A space whose response did not carry [sha]. *)
Definition space_without_sha : SpaceInfo :=
  {| space_attrs := {[ "id" := VStr "alice/demo"; "author" := VStr "alice" ]};
     space_runtime := None |}.

(** A runtime whose response carried only [stage], and one that carried
    nothing. *)
Definition bare_runtime : SpaceRuntime :=
  {| rt_attrs := {[ "stage" := VStr "RUNNING" ]} |}.

Definition empty_runtime : SpaceRuntime := {| rt_attrs := ∅ |}.

(** A hub whose every handle answers the same way whatever the token and
    the arguments. *)
Definition const_hub (listing : list SpaceInfo * option exn)
    (info : exn + SpaceInfo) (action : exn + SpaceRuntime)
  : option string → HfApi :=
  λ _, {| api_list_spaces := λ _ _ _ _, listing;
          api_space_info := λ _, info;
          api_restart_space := λ _, action;
          api_pause_space := λ _, action;
          api_get_space_runtime := λ _, action |}.

(** A hub on which every call fails with [e]. *)
Definition failing_hub (e : exn) : option string → HfApi :=
  const_hub ([], Some e) (inl e) (inl e).

(** A hub that serves [bare_space] and [bare_runtime]. *)
Definition bare_hub : option string → HfApi :=
  const_hub ([bare_space], None) (inr bare_space) (inr bare_runtime).

(** A hub whose responses lack unguarded fields: the second item of the
    listing and the single space have no [sha], the runtime has no
    [stage]. *)
Definition partial_hub : option string → HfApi :=
  const_hub ([bare_space; space_without_sha], None)
            (inr space_without_sha) (inr empty_runtime).

Definition no_json : json → string := λ _, "".
Definition no_str : SpaceRuntime → string := λ _, "".

(** ** Vocabulary of the statements *)

(** The attributes [names] are all missing from an object. *)
Definition lacks (attrs : gmap string pyval) (names : list string) : Prop :=
  ∀ n, n ∈ names → attrs !! n = None.

(** The same for the runtime object of a space, when it has one. *)
Definition runtime_lacks (space : SpaceInfo) (names : list string) : Prop :=
  match space_runtime space with
  | Some (Some r) => lacks (rt_attrs r) names
  | _ => True
  end.

(** The records built from a response that carried the unguarded fields
    only. *)
Definition bare_summary (id author sha : pyval) : dict :=
  [("id", id); ("author", author); ("sha", sha); ("last_modified", VNone);
   ("private", VBool false); ("likes", VInt 0); ("sdk", VNone)].

Definition bare_detail (id author sha : pyval) : dict :=
  [("id", id); ("author", author); ("sha", sha); ("last_modified", VNone);
   ("private", VBool false); ("likes", VInt 0); ("sdk", VNone);
   ("sdk_version", VNone); ("runtime", VNone); ("hardware", VNone)].

Definition bare_status (stage : pyval) (raw_data : string) : dict :=
  [("stage", stage); ("hardware", VNone); ("requested_hardware", VNone);
   ("sleep_time", VNone); ("raw_data", VStr raw_data)].

(** [d] is the summary of [space], a space whose response carried [id],
    [author] and [sha] and none of the guarded fields. *)
Definition summary_of_bare (space : SpaceInfo) (d : dict) : Prop :=
  ∃ id author sha,
    space_attrs space !! "id" = Some id
    ∧ space_attrs space !! "author" = Some author
    ∧ space_attrs space !! "sha" = Some sha
    ∧ lacks (space_attrs space) ["lastModified"; "private"; "likes"; "sdk"]
    ∧ d = bare_summary id author sha.

(** The two lines [get_token] prints when it finds no token. *)
Definition token_warning : list event :=
  [Stderr "Warning: No HF_TOKEN or HUGGINGFACE_TOKEN found in environment.";
   Stderr "Some operations may require authentication."].

(** The result of a command came back absent or false. *)
Definition command_failed (hub : option string → HfApi)
    (str_runtime : SpaceRuntime → string) (cmd : Command)
    (token : option string) : Prop :=
  match cmd with
  | CmdInfo space_id =>
      value (get_space_info hub space_id token) = Return None
  | CmdRestart space_id =>
      value (restart_space hub space_id token) = Return false
  | CmdPause space_id =>
      value (pause_space hub space_id token) = Return false
  | CmdRuntime space_id =>
      value (get_space_runtime hub str_runtime space_id token) = Return None
  | CmdList _ _ _ | CmdUser _ => False
  end.

(** Building a record prints nothing and never exits: it returns or raises
    with an empty log. *)
Inductive quiet {A : Type} : M A → Prop :=
| quiet_return (a : A) : quiet (Return a, [])
| quiet_raise (e : exn) : quiet (Raise e, []).

(** ** The records as projections

    What the three record builders compute, written as plain functions of
    the response: each guarded field is the attribute when the response
    carries it and the default otherwise; the record exists when the
    unguarded fields are all there. *)

Definition last_modified_text (space : SpaceInfo) : pyval :=
  match space_attrs space !! "lastModified" with
  | Some v => VStr (py_str v)
  | None => VNone
  end.

Definition runtime_field (space : SpaceInfo) (name : string) : pyval :=
  match space_runtime space with
  | Some (Some r) => default VNone (rt_attrs r !! name)
  | _ => VNone
  end.

Definition summary_record (space : SpaceInfo) : option dict :=
  let a := space_attrs space in
  id ← a !! "id";
  author ← a !! "author";
  sha ← a !! "sha";
  Some [("id", id); ("author", author); ("sha", sha);
        ("last_modified", last_modified_text space);
        ("private", default (VBool false) (a !! "private"));
        ("likes", default (VInt 0) (a !! "likes"));
        ("sdk", default VNone (a !! "sdk"))].

Definition detail_record (space : SpaceInfo) : option dict :=
  let a := space_attrs space in
  id ← a !! "id";
  author ← a !! "author";
  sha ← a !! "sha";
  Some [("id", id); ("author", author); ("sha", sha);
        ("last_modified", last_modified_text space);
        ("private", default (VBool false) (a !! "private"));
        ("likes", default (VInt 0) (a !! "likes"));
        ("sdk", default VNone (a !! "sdk"));
        ("sdk_version", default VNone (a !! "sdk_version"));
        ("runtime", runtime_field space "stage");
        ("hardware", runtime_field space "hardware")].


(** The keys of a record, in the order they are printed. *)
Definition keys (d : dict) : list string := d.*1.

(** ** Commands and their remote call *)

(** The one request a command stands for. *)
Definition request_of (cmd : Command) : request :=
  match cmd with
  | CmdList author search limit => ReqListSpaces author search limit true
  | CmdInfo space_id => ReqSpaceInfo space_id
  | CmdRestart space_id => ReqRestartSpace space_id
  | CmdPause space_id => ReqPauseSpace space_id
  | CmdRuntime space_id => ReqGetSpaceRuntime space_id
  | CmdUser username => ReqListSpaces (Some username) None 100 true
  end.

Definition is_mutating (cmd : Command) : bool :=
  match cmd with
  | CmdRestart _ | CmdPause _ => true
  | _ => false
  end.


(** The remote calls and the lines on standard output of a log. *)
Definition remote_events (log : list event) : list event :=
  filter (λ ev, is_remote ev = true) log.


(** A space with every attribute the script reads, its [lastModified] and
    [private] holding [None], and a running runtime. *)
Definition full_space : SpaceInfo :=
  {| space_attrs :=
       {[ "id" := VStr "bob/app"; "author" := VStr "bob";
          "sha" := VStr "9f8e7d"; "lastModified" := VNone;
          "private" := VNone; "likes" := VInt 7; "sdk" := VStr "gradio";
          "sdk_version" := VStr "4.0" ]};
     space_runtime :=
       Some (Some {| rt_attrs := {[ "stage" := VStr "RUNNING";
                                    "hardware" := VStr "cpu-basic" ]} |}) |}.

(** A hub that serves a listing of three spaces and [full_space]. *)
Definition full_hub : option string → HfApi :=
  const_hub ([bare_space; full_space; bare_space], None)
            (inr full_space) (inr bare_runtime).

(** * Properties *)

(** ** Attribute reads and record building *)

#[local] Hint Constructors quiet : core.

Lemma quiet_cases {A : Type} (m : M A) :
  quiet m → (∃ a, m = (Return a, [])) ∨ (∃ e, m = (Raise e, [])).
Proof. intros [a|e]; eauto. Qed.

Ltac unfold_monad :=
  unfold mbind, mret, M_bind, M_ret, bind, ret, raise, emit, print, eprint,
    sys_exit, try_except, call in *.

Lemma hasattr_present (a : gmap string pyval) (n : string) (v : pyval) :
  a !! n = Some v → hasattr a n = true.
Proof.
  intros H. unfold hasattr. apply bool_decide_eq_true. by exists v.
Qed.

Lemma hasattr_absent (a : gmap string pyval) (n : string) :
  a !! n = None → hasattr a n = false.
Proof.
  intros H. unfold hasattr. apply bool_decide_eq_false.
  rewrite H. by intros [v Hv].
Qed.

Lemma getattr_present cls (a : gmap string pyval) (n : string) (v : pyval) :
  a !! n = Some v → getattr cls a n = (Return v, []).
Proof. intros H. unfold getattr. by rewrite H. Qed.

Lemma getattr_absent cls (a : gmap string pyval) (n : string) :
  a !! n = None → getattr cls a n = (Raise (AttributeError cls n), []).
Proof. intros H. unfold getattr. by rewrite H. Qed.

Lemma getattr_or_absent cls (a : gmap string pyval) (n : string) d :
  a !! n = None → getattr_or cls a n d = (Return d, []).
Proof. intros H. unfold getattr_or. by rewrite (hasattr_absent _ _ H). Qed.

(** A guarded read cannot raise. *)
Lemma getattr_or_returns cls (a : gmap string pyval) (n : string) d :
  ∃ v, getattr_or cls a n d = (Return v, []).
Proof.
  unfold getattr_or. destruct (a !! n) as [v|] eqn:H.
  - exists v. by rewrite (hasattr_present _ _ _ H), (getattr_present _ _ _ _ H).
  - exists d. by rewrite (hasattr_absent _ _ H).
Qed.

Lemma last_modified_of_returns space :
  ∃ v, last_modified_of space = (Return v, []).
Proof.
  unfold last_modified_of.
  destruct (space_attrs space !! "lastModified") as [v|] eqn:H.
  - exists (VStr (py_str v)).
    by rewrite (hasattr_present _ _ _ H), (getattr_present _ _ _ _ H).
  - exists VNone. by rewrite (hasattr_absent _ _ H).
Qed.

Lemma runtime_attr_or_none_returns space n :
  ∃ v, runtime_attr_or_none space n = (Return v, []).
Proof.
  unfold runtime_attr_or_none.
  destruct (space_runtime space) as [[r|]|]; simpl; [|by eexists..].
  destruct (rt_attrs r !! n) as [v|] eqn:H.
  - exists v. by rewrite (hasattr_present _ _ _ H), (getattr_present _ _ _ _ H).
  - exists VNone. by rewrite (hasattr_absent _ _ H).
Qed.

(** Rewrites the guarded reads of a record builder to their results. *)
Ltac guarded_reads :=
  repeat match goal with
  | |- context [getattr_or ?c ?a ?n ?d] =>
      let v := fresh "v" in let H := fresh "H" in
      destruct (getattr_or_returns c a n d) as [v H]; rewrite H; clear H
  | |- context [last_modified_of ?s] =>
      let v := fresh "v" in let H := fresh "H" in
      destruct (last_modified_of_returns s) as [v H]; rewrite H; clear H
  | |- context [runtime_attr_or_none ?s ?n] =>
      let v := fresh "v" in let H := fresh "H" in
      destruct (runtime_attr_or_none_returns s n) as [v H]; rewrite H; clear H
  end.

Lemma space_dict_quiet space : quiet (space_dict space).
Proof.
  unfold space_dict, getattr. guarded_reads.
  destruct (space_attrs space !! "id"); [|by unfold_monad].
  destruct (space_attrs space !! "author"); [|by unfold_monad].
  destruct (space_attrs space !! "sha"); by unfold_monad.
Qed.

Lemma info_dict_quiet space : quiet (info_dict space).
Proof.
  unfold info_dict, getattr. guarded_reads.
  destruct (space_attrs space !! "id"); [|by unfold_monad].
  destruct (space_attrs space !! "author"); [|by unfold_monad].
  destruct (space_attrs space !! "sha"); by unfold_monad.
Qed.

Lemma runtime_dict_quiet str_runtime runtime :
  quiet (runtime_dict str_runtime runtime).
Proof.
  unfold runtime_dict, getattr. guarded_reads.
  destruct (rt_attrs runtime !! "stage"); by unfold_monad.
Qed.

(** A record whose response lacks one of the unguarded fields is not
    built. *)
Lemma space_dict_raises space n :
  n ∈ ["id"; "author"; "sha"] → space_attrs space !! n = None →
  ∃ e, space_dict space = (Raise e, []).
Proof.
  intros Hn Habsent. unfold space_dict, getattr. guarded_reads.
  destruct (space_attrs space !! "id") eqn:Hid; [|by eexists].
  destruct (space_attrs space !! "author") eqn:Hau; [|by eexists].
  destruct (space_attrs space !! "sha") eqn:Hsha; [|by eexists].
  set_unfold. destruct Hn as [->|[->|[->|[]]]]; congruence.
Qed.

Lemma info_dict_raises space n :
  n ∈ ["id"; "author"; "sha"] → space_attrs space !! n = None →
  ∃ e, info_dict space = (Raise e, []).
Proof.
  intros Hn Habsent. unfold info_dict, getattr. guarded_reads.
  destruct (space_attrs space !! "id") eqn:Hid; [|by eexists].
  destruct (space_attrs space !! "author") eqn:Hau; [|by eexists].
  destruct (space_attrs space !! "sha") eqn:Hsha; [|by eexists].
  set_unfold. destruct Hn as [->|[->|[->|[]]]]; congruence.
Qed.

(** ** The loop of [list_spaces] *)

Lemma for_spaces_quiet items failure results :
  quiet (for_spaces items failure results).
Proof.
  revert results. induction items as [|space rest IH]; intros results; simpl.
  - destruct failure; by unfold_monad.
  - destruct (space_dict_quiet space) as [d|e]; unfold_monad; simpl.
    + specialize (IH (results ++ [d])%list).
      destruct IH; simpl; auto.
    + auto.
Qed.

(** The loop does not return when the iteration ends with an exception. *)
Lemma for_spaces_failure items e results :
  ∃ e', for_spaces items (Some e) results = (Raise e', []).
Proof.
  revert results. induction items as [|space rest IH]; intros results; simpl.
  - by exists e.
  - destruct (space_dict_quiet space) as [d|e0]; unfold_monad; simpl.
    + destruct (IH (results ++ [d])%list) as [e' ->]. by exists e'.
    + by exists e0.
Qed.

(** Nor when one of the items yielded cannot be turned into a record. *)
Lemma for_spaces_bad_item items failure results space :
  space ∈ items → (∃ e, space_dict space = (Raise e, [])) →
  ∃ e', for_spaces items failure results = (Raise e', []).
Proof.
  intros Hin [e He]. revert results.
  induction items as [|s rest IH]; intros results; [by set_unfold|].
  simpl.
  destruct (quiet_cases _ (space_dict_quiet s)) as [[d Hs]|[e0 Hs]];
    rewrite Hs; unfold_monad; simpl.
  - apply elem_of_cons in Hin as [->|Hin]; [congruence|].
    destruct (IH Hin (results ++ [d])%list) as [e' ->]. by exists e'.
  - by exists e0.
Qed.

(** ** Mutating operations need a token *)

(** C1: for every space id, [restart_space] and [pause_space] called with
    an absent ([None]) or empty token return [False]; the only thing they
    leave behind is one error line on standard error, so no remote call is
    made. *)
Theorem mutating_ops_require_token hub space_id token :
  token = None ∨ token = Some "" →
  restart_space hub space_id token =
    (Return false, [Stderr "Error: Token is required to restart a space."])
  ∧ pause_space hub space_id token =
    (Return false, [Stderr "Error: Token is required to pause a space."])
  ∧ remote_calls (log_of (restart_space hub space_id token)) = 0%nat
  ∧ remote_calls (log_of (pause_space hub space_id token)) = 0%nat.
Proof.
  intros [-> | ->]; repeat split; reflexivity.
Qed.

Lemma mutating_ops_require_token_witness :
  (Some "" = None ∨ Some "" = Some "")
  ∧ restart_space bare_hub "alice/demo" (Some "") =
      (Return false, [Stderr "Error: Token is required to restart a space."])
  ∧ remote_calls (log_of (pause_space bare_hub "alice/demo" (Some ""))) = 0%nat.
Proof.
  assert (Hempty : Some "" = None ∨ Some "" = Some "") by (right; reflexivity).
  split; [exact Hempty|].
  destruct (mutating_ops_require_token bare_hub "alice/demo" (Some "") Hempty)
    as (Hrestart & _ & _ & Hpause).
  split; [exact Hrestart | exact Hpause].
Defined.

(** ** list_user_spaces *)

(** C4: for every username and token, [list_user_spaces] is [list_spaces]
    with the author bound to the username, no search term and the limit
    100: same result, same remote call, same output. *)
Theorem list_user_spaces_is_list_spaces hub username token :
  list_user_spaces hub username token =
  list_spaces hub (Some username) None 100 token.
Proof. reflexivity. Qed.

(** ** Token resolution *)

Section Token.

Context (environ : gmap string string).

Lemma truthy_Some_true s : truthy (Some s) = true ↔ s ≠ "".
Proof.
  simpl. rewrite negb_true_iff. split.
  - intros H ->. by rewrite String.eqb_refl in H.
  - intros H. by apply String.eqb_neq.
Qed.

Lemma truthy_false o : truthy o = false ↔ o = None ∨ o = Some "".
Proof.
  destruct o as [s|]; simpl.
  - rewrite negb_false_iff, String.eqb_eq. split.
    + intros ->. by right.
    + by intros [?|[= ->]].
  - split; [by left | done].
Qed.

Lemma get_token_cases :
  let hf := environ !! "HF_TOKEN" in
  let hug := environ !! "HUGGINGFACE_TOKEN" in
  (truthy hf = true → get_token environ = (Return hf, []))
  ∧ (truthy hf = false → truthy hug = true →
       get_token environ = (Return hug, []))
  ∧ (truthy hf = false → truthy hug = false →
       get_token environ = (Return hug, token_warning)).
Proof.
  simpl. unfold get_token, py_or. repeat split.
  - intros H. by rewrite !H.
  - intros H1 H2. by rewrite H1, H2.
  - intros H1 H2. by rewrite H1, H2.
Qed.

(** C7, as the code has it: a [--token] flag that is given and not empty is
    the token, and then the environment is not consulted; otherwise the
    token is the first non-empty of [HF_TOKEN] and [HUGGINGFACE_TOKEN];
    otherwise the two warning lines go to standard error and the token is
    what [HUGGINGFACE_TOKEN] holds, which is absent or the empty string. *)
Theorem token_resolution_order flag :
  let hf := environ !! "HF_TOKEN" in
  let hug := environ !! "HUGGINGFACE_TOKEN" in
  (∀ t, flag = Some t → t ≠ "" →
     resolve_token environ flag = (Return (Some t), []))
  ∧ (flag = None ∨ flag = Some "" → ∀ t, hf = Some t → t ≠ "" →
     resolve_token environ flag = (Return (Some t), []))
  ∧ (flag = None ∨ flag = Some "" → hf = None ∨ hf = Some "" →
     ∀ t, hug = Some t → t ≠ "" →
     resolve_token environ flag = (Return (Some t), []))
  ∧ (flag = None ∨ flag = Some "" → hf = None ∨ hf = Some "" →
     hug = None ∨ hug = Some "" →
     resolve_token environ flag = (Return hug, token_warning)).
Proof.
  simpl. destruct get_token_cases as (Hhf & Hhug & Hnone).
  unfold resolve_token. repeat split.
  - intros t -> Ht. apply truthy_Some_true in Ht. by rewrite Ht.
  - intros Hflag t Ht Hne. apply truthy_false in Hflag. rewrite Hflag.
    rewrite <- Ht. apply Hhf. rewrite Ht. by apply truthy_Some_true.
  - intros Hflag Hf t Ht Hne. apply truthy_false in Hflag, Hf.
    rewrite Hflag, <- Ht. apply Hhug; [done|].
    rewrite Ht. by apply truthy_Some_true.
  - intros Hflag Hf Hg. apply truthy_false in Hflag, Hf, Hg.
    rewrite Hflag. by apply Hnone.
Qed.

(** C10: an explicit but empty [--token] is not used: resolution, and with
    it the whole run of [main], is the one of the same command line
    without the flag. *)
Theorem empty_token_flag_is_ignored hub str_runtime json_dumps format_help cmd :
  resolve_token environ (Some "") = get_token environ
  ∧ resolve_token environ (Some "") = resolve_token environ None
  ∧ main hub str_runtime environ json_dumps format_help
      {| args_token := Some ""; args_command := cmd |} =
    main hub str_runtime environ json_dumps format_help
      {| args_token := None; args_command := cmd |}.
Proof. repeat split; reflexivity. Qed.

End Token.

(** ** No subcommand *)

(** C8: with no subcommand, [main] prints the help text on standard output
    and exits with status 1; nothing else happens. *)
Theorem no_subcommand_prints_usage hub str_runtime environ json_dumps
    format_help flag :
  let run := main hub str_runtime environ json_dumps format_help
               {| args_token := flag; args_command := None |} in
  run = (Exit 1, [Stdout format_help]) ∧ exit_status (value run) = 1.
Proof. split; reflexivity. Qed.

(** ** Read operations swallow failures *)

Section Reads.

Context (hub : option string → HfApi) (str_runtime : SpaceRuntime → string).

(** [list_spaces] ends in one of two ways: the records of all the items,
    after the remote call alone; or the empty list, after the remote call
    and one diagnostic. *)
Lemma list_spaces_cases author search limit token :
  let req := Remote token (ReqListSpaces author search limit true) in
  (∃ results, list_spaces hub author search limit token =
     (Return results, [req]))
  ∨ (∃ e, list_spaces hub author search limit token =
     (Return [], [req; Stderr ("Error listing spaces: " +:+ exn_str e)])).
Proof.
  simpl. unfold list_spaces.
  destruct (api_list_spaces (hub token) author search limit true)
    as [items failure].
  destruct (quiet_cases _ (for_spaces_quiet items failure []))
    as [[results H]|[e H]]; unfold_monad; simpl; rewrite H; simpl; eauto.
Qed.

Lemma list_spaces_raised author search limit token items failure e :
  api_list_spaces (hub token) author search limit true = (items, failure) →
  for_spaces items failure [] = (Raise e, []) →
  list_spaces hub author search limit token =
    (Return [], [Remote token (ReqListSpaces author search limit true);
                 Stderr ("Error listing spaces: " +:+ exn_str e)]).
Proof.
  intros Hapi Hloop. unfold list_spaces. rewrite Hapi.
  unfold_monad; simpl. by rewrite Hloop.
Qed.

(** C3: whatever the arguments, a listing whose remote iteration fails
    (at the call or after any number of items) is not propagated by
    [list_spaces]: the function returns the empty list, after one
    diagnostic line on standard error.  Whatever the hub does,
    [list_spaces] returns a list, and so does [list_user_spaces]. *)
Theorem list_spaces_swallows_failures token :
  (∀ author search limit items e,
     api_list_spaces (hub token) author search limit true = (items, Some e) →
     ∃ e', list_spaces hub author search limit token =
       (Return [], [Remote token (ReqListSpaces author search limit true);
                    Stderr ("Error listing spaces: " +:+ exn_str e')]))
  ∧ (∀ username items e,
     api_list_spaces (hub token) (Some username) None 100 true
       = (items, Some e) →
     ∃ e', list_user_spaces hub username token =
       (Return [], [Remote token (ReqListSpaces (Some username) None 100 true);
                    Stderr ("Error listing spaces: " +:+ exn_str e')]))
  ∧ (∀ author search limit,
     ∃ results, value (list_spaces hub author search limit token)
                = Return results)
  ∧ (∀ username,
     ∃ results, value (list_user_spaces hub username token) = Return results).
Proof.
  assert (Hfail : ∀ author search limit items e,
     api_list_spaces (hub token) author search limit true = (items, Some e) →
     ∃ e', list_spaces hub author search limit token =
       (Return [], [Remote token (ReqListSpaces author search limit true);
                    Stderr ("Error listing spaces: " +:+ exn_str e')])).
  { intros author search limit items e Hapi.
    destruct (for_spaces_failure items e []) as [e' He'].
    exists e'. by eapply list_spaces_raised. }
  assert (Htotal : ∀ author search limit,
     ∃ results, value (list_spaces hub author search limit token)
                = Return results).
  { intros author search limit.
    destruct (list_spaces_cases author search limit token)
      as [[results ->]|[e ->]]; by eexists. }
  repeat split.
  - exact Hfail.
  - intros username items e. apply Hfail.
  - exact Htotal.
  - intros username. apply Htotal.
Qed.

(** The two ways [get_space_info] and [get_space_runtime] report a
    failure. *)
Lemma get_space_info_raised space_id token space e :
  api_space_info (hub token) space_id = inr space →
  info_dict space = (Raise e, []) →
  ∃ line, get_space_info hub space_id token =
    (Return None, [Remote token (ReqSpaceInfo space_id); Stderr line]).
Proof.
  intros Hapi Hdict. unfold get_space_info. rewrite Hapi.
  unfold_monad; simpl. rewrite Hdict. destruct e; by eexists.
Qed.

Lemma get_space_runtime_raised space_id token runtime e :
  api_get_space_runtime (hub token) space_id = inr runtime →
  runtime_dict str_runtime runtime = (Raise e, []) →
  ∃ line, get_space_runtime hub str_runtime space_id token =
    (Return None, [Remote token (ReqGetSpaceRuntime space_id); Stderr line]).
Proof.
  intros Hapi Hdict. unfold get_space_runtime. rewrite Hapi.
  unfold_monad; simpl. rewrite Hdict. destruct e; by eexists.
Qed.

(** C6: for every space id and token, [get_space_info] answers a failure
    with [None]: a failed remote call, be it an HTTP error of the hub or
    any other exception, and a response from which the record cannot be
    built.  The two kinds of failure differ in the line printed on standard
    error and in nothing else. *)
Theorem get_space_info_absent_on_failure space_id token :
  let req := Remote token (ReqSpaceInfo space_id) in
  (∀ msg, api_space_info (hub token) space_id = inl (HfHubHTTPError msg) →
     get_space_info hub space_id token =
       (Return None, [req; Stderr ("Error getting space info: " +:+ msg)]))
  ∧ (∀ e, api_space_info (hub token) space_id = inl e →
     (∀ msg, e ≠ HfHubHTTPError msg) →
     get_space_info hub space_id token =
       (Return None, [req; Stderr ("Unexpected error: " +:+ exn_str e)]))
  ∧ (∀ space e, api_space_info (hub token) space_id = inr space →
     info_dict space = (Raise e, []) →
     get_space_info hub space_id token =
       (Return None, [req; Stderr ("Unexpected error: " +:+ exn_str e)]))
  ∧ (∃ result, value (get_space_info hub space_id token) = Return result).
Proof.
  simpl. unfold get_space_info. repeat split.
  - intros msg ->. reflexivity.
  - intros e -> Hother. destruct e; try reflexivity.
    by destruct (Hother msg).
  - intros space e -> Hdict. unfold_monad; simpl. rewrite Hdict.
    destruct e; try reflexivity.
    (* the record builders raise [AttributeError] only *)
    exfalso. revert Hdict. unfold info_dict, getattr. guarded_reads.
    destruct (space_attrs space !! "id"); [|by unfold_monad].
    destruct (space_attrs space !! "author"); [|by unfold_monad].
    destruct (space_attrs space !! "sha"); by unfold_monad.
  - destruct (api_space_info (hub token) space_id) as [e|space].
    + destruct e; by eexists.
    + unfold_monad; simpl.
      destruct (quiet_cases _ (info_dict_quiet space)) as [[d ->]|[e ->]].
      * by eexists.
      * destruct e; by eexists.
Qed.

End Reads.

(** ** Fields read without a guard *)

Section Fields.

Context (hub : option string → HfApi) (str_runtime : SpaceRuntime → string).

(** C9: [id], [author] and [sha] are read without a guard in [list_spaces]
    and [get_space_info], and so is [stage] in [get_space_runtime]: a
    response that lacks one of them gives no record with that field null.
    One such item anywhere in a listing empties the whole listing, and the
    two single-space operations return [None]; each prints one
    diagnostic. *)
Theorem unguarded_fields_degrade token :
  (∀ name space author search limit items failure,
     name ∈ ["id"; "author"; "sha"] → space_attrs space !! name = None →
     api_list_spaces (hub token) author search limit true = (items, failure) →
     space ∈ items →
     ∃ e, list_spaces hub author search limit token =
       (Return [], [Remote token (ReqListSpaces author search limit true);
                    Stderr ("Error listing spaces: " +:+ exn_str e)]))
  ∧ (∀ name space space_id,
     name ∈ ["id"; "author"; "sha"] → space_attrs space !! name = None →
     api_space_info (hub token) space_id = inr space →
     ∃ line, get_space_info hub space_id token =
       (Return None, [Remote token (ReqSpaceInfo space_id); Stderr line]))
  ∧ (∀ runtime space_id,
     rt_attrs runtime !! "stage" = None →
     api_get_space_runtime (hub token) space_id = inr runtime →
     ∃ line, get_space_runtime hub str_runtime space_id token =
       (Return None, [Remote token (ReqGetSpaceRuntime space_id);
                      Stderr line])).
Proof.
  repeat split.
  - intros name space author search limit items failure Hname Habsent Hapi Hin.
    destruct (for_spaces_bad_item items failure [] space Hin
                (space_dict_raises space name Hname Habsent)) as [e He].
    exists e. by eapply list_spaces_raised.
  - intros name space space_id Hname Habsent Hapi.
    destruct (info_dict_raises space name Hname Habsent) as [e He].
    by eapply get_space_info_raised.
  - intros runtime space_id Habsent Hapi.
    eapply get_space_runtime_raised; [done|].
    unfold runtime_dict. by rewrite (getattr_absent _ _ _ Habsent).
Qed.

End Fields.

(** ** Records from a response without the guarded fields *)

Section Records.

Context (hub : option string → HfApi) (str_runtime : SpaceRuntime → string).

Lemma lacks_lookup (a : gmap string pyval) names n :
  lacks a names → n ∈ names → a !! n = None.
Proof. intros H. apply H. Qed.

Ltac absent H := apply (lacks_lookup _ _ _ H); set_solver.

Lemma last_modified_of_absent space :
  space_attrs space !! "lastModified" = None →
  last_modified_of space = (Return VNone, []).
Proof.
  intros H. unfold last_modified_of. by rewrite (hasattr_absent _ _ H).
Qed.

Lemma runtime_attr_or_none_absent space n :
  runtime_lacks space [n] → runtime_attr_or_none space n = (Return VNone, []).
Proof.
  unfold runtime_lacks, runtime_attr_or_none.
  destruct (space_runtime space) as [[r|]|]; simpl; try done.
  intros H. rewrite hasattr_absent; [done|]. absent H.
Qed.

Lemma runtime_lacks_weaken space names n :
  runtime_lacks space names → n ∈ names → runtime_lacks space [n].
Proof.
  unfold runtime_lacks. destruct (space_runtime space) as [[r|]|]; try done.
  intros H Hn m Hm. apply H. set_unfold. by destruct Hm as [->|[]].
Qed.

Lemma space_dict_bare space d :
  summary_of_bare space d → space_dict space = (Return d, []).
Proof.
  intros (id & author & sha & Hid & Hau & Hsha & Hlacks & ->).
  unfold space_dict.
  rewrite (getattr_present _ _ _ _ Hid), (getattr_present _ _ _ _ Hau),
    (getattr_present _ _ _ _ Hsha).
  rewrite last_modified_of_absent by absent Hlacks.
  rewrite !getattr_or_absent by absent Hlacks.
  reflexivity.
Qed.

Lemma for_spaces_built items ds results :
  Forall2 (λ space d, space_dict space = (Return d, [])) items ds →
  for_spaces items None results = (Return (results ++ ds)%list, []).
Proof.
  intros H. revert results.
  induction H as [|space d items ds Hd _ IH]; intros results; simpl.
  - by rewrite app_nil_r.
  - rewrite Hd. unfold_monad; simpl. rewrite IH.
    by rewrite <- app_assoc.
Qed.

(** C2, as the code has it: a record built from a response that carries
    the unguarded fields and none of the guarded ones is built without
    failure; its fields [last_modified], [sdk], [sdk_version], [runtime],
    [hardware], [requested_hardware] and [sleep_time] are [None], while
    [private] is [False] and [likes] is [0].  This holds for the records
    of [list_spaces], [get_space_info] and [get_space_runtime]. *)
Theorem absent_guarded_fields_default token :
  (∀ author search limit items ds,
     api_list_spaces (hub token) author search limit true = (items, None) →
     Forall2 summary_of_bare items ds →
     list_spaces hub author search limit token =
       (Return ds, [Remote token (ReqListSpaces author search limit true)]))
  ∧ (∀ space_id space id author sha,
     api_space_info (hub token) space_id = inr space →
     space_attrs space !! "id" = Some id →
     space_attrs space !! "author" = Some author →
     space_attrs space !! "sha" = Some sha →
     lacks (space_attrs space)
       ["lastModified"; "private"; "likes"; "sdk"; "sdk_version"] →
     runtime_lacks space ["stage"; "hardware"] →
     get_space_info hub space_id token =
       (Return (Some (bare_detail id author sha)),
        [Remote token (ReqSpaceInfo space_id)]))
  ∧ (∀ space_id runtime stage,
     api_get_space_runtime (hub token) space_id = inr runtime →
     rt_attrs runtime !! "stage" = Some stage →
     lacks (rt_attrs runtime) ["hardware"; "requested_hardware"; "sleep_time"] →
     get_space_runtime hub str_runtime space_id token =
       (Return (Some (bare_status stage (str_runtime runtime))),
        [Remote token (ReqGetSpaceRuntime space_id)])).
Proof.
  repeat split.
  - intros author search limit items ds Hapi Hbare.
    unfold list_spaces. rewrite Hapi. unfold_monad; simpl.
    rewrite (for_spaces_built items ds []); [done|].
    eapply Forall2_impl; [exact Hbare|]. apply space_dict_bare.
  - intros space_id space id author sha Hapi Hid Hau Hsha Hlacks Hrt.
    unfold get_space_info. rewrite Hapi. unfold_monad; simpl.
    unfold info_dict.
    rewrite (getattr_present _ _ _ _ Hid), (getattr_present _ _ _ _ Hau),
      (getattr_present _ _ _ _ Hsha).
    rewrite last_modified_of_absent by absent Hlacks.
    rewrite !getattr_or_absent by absent Hlacks.
    rewrite !runtime_attr_or_none_absent
      by (eapply runtime_lacks_weaken; [exact Hrt | set_solver]).
    reflexivity.
  - intros space_id runtime stage Hapi Hstage Hlacks.
    unfold get_space_runtime. rewrite Hapi. unfold_monad; simpl.
    unfold runtime_dict.
    rewrite (getattr_present _ _ _ _ Hstage).
    rewrite !getattr_or_absent by absent Hlacks.
    reflexivity.
Qed.

End Records.

(** ** Exit status *)

Section ExitStatus.

Context (hub : option string → HfApi) (str_runtime : SpaceRuntime → string)
  (environ : gmap string string) (json_dumps : json → string)
  (format_help : string).

Lemma resolve_token_returns flag :
  ∃ token log, resolve_token environ flag = (Return token, log).
Proof.
  unfold resolve_token, get_token.
  destruct (truthy flag); [by eexists _, _|].
  destruct (truthy (py_or _ _)); by eexists _, _.
Qed.

Lemma restart_space_returns space_id token :
  ∃ success log, restart_space hub space_id token = (Return success, log).
Proof.
  unfold restart_space. destruct (truthy token); simpl; [|by eexists _, _].
  destruct (api_restart_space (hub token) space_id) as [e|r];
    [destruct e|]; by eexists _, _.
Qed.

Lemma pause_space_returns space_id token :
  ∃ success log, pause_space hub space_id token = (Return success, log).
Proof.
  unfold pause_space. destruct (truthy token); simpl; [|by eexists _, _].
  destruct (api_pause_space (hub token) space_id) as [e|r];
    [destruct e|]; by eexists _, _.
Qed.

(** The dictionaries of [get_space_info] and [get_space_runtime] are never
    empty, so [if info:] tests for [None] only. *)
Lemma get_space_info_returns space_id token :
  ∃ info log, get_space_info hub space_id token = (Return info, log)
              ∧ (truthy_dict info = false ↔ info = None).
Proof.
  unfold get_space_info.
  destruct (api_space_info (hub token) space_id) as [e|space].
  - destruct e; by eexists _, _.
  - unfold_monad; simpl. unfold info_dict, getattr. guarded_reads.
    destruct (space_attrs space !! "id");
      [|by eexists _, _].
    destruct (space_attrs space !! "author"); [|by eexists _, _].
    destruct (space_attrs space !! "sha"); by eexists _, _.
Qed.

Lemma get_space_runtime_returns space_id token :
  ∃ info log, get_space_runtime hub str_runtime space_id token
                = (Return info, log)
              ∧ (truthy_dict info = false ↔ info = None).
Proof.
  unfold get_space_runtime.
  destruct (api_get_space_runtime (hub token) space_id) as [e|runtime].
  - destruct e; by eexists _, _.
  - unfold_monad; simpl. unfold runtime_dict, getattr. guarded_reads.
    destruct (rt_attrs runtime !! "stage"); by eexists _, _.
Qed.

(** C5: when a subcommand is given, [main] runs it with the token it
    resolved and the process ends with status 1 exactly when the command
    is [info], [restart], [pause] or [runtime] and its result came back
    absent or false; the status is 0 otherwise.  For [list] and [user] it
    is always 0, also when the listing failed and came back empty. *)
Theorem exit_status_contract flag cmd :
  ∃ token log,
    resolve_token environ flag = (Return token, log)
    ∧ let status :=
        exit_status
          (value (main hub str_runtime environ json_dumps format_help
                    {| args_token := flag; args_command := Some cmd |})) in
      (status = 1 ↔ command_failed hub str_runtime cmd token)
      ∧ (status = 0 ∨ status = 1)
      ∧ match cmd with
        | CmdList _ _ _ | CmdUser _ => status = 0
        | _ => True
        end.
Proof.
  destruct (resolve_token_returns flag) as (token & log & Hres).
  exists token, log. split; [exact Hres|].
  unfold main, command_failed, value; simpl. rewrite Hres.
  unfold_monad; simpl.
  destruct cmd as [author search limit|space_id|space_id|space_id|space_id
                  |username].
  - destruct (list_spaces_cases hub author search limit token)
      as [[results ->]|[e ->]]; simpl; repeat split; try done; by left.
  - destruct (get_space_info_returns space_id token)
      as (info & log' & -> & Hinfo); simpl.
    destruct (truthy_dict info) eqn:Ht; simpl.
    + repeat split; try done; [|by left].
      intros [= ->]. done.
    + repeat split; try done; [|by right].
      intros _. f_equal. by apply Hinfo.
  - destruct (restart_space_returns space_id token) as (b & log' & ->).
    destruct b; simpl; repeat split; try done; first [by left | by right].
  - destruct (pause_space_returns space_id token) as (b & log' & ->).
    destruct b; simpl; repeat split; try done; first [by left | by right].
  - destruct (get_space_runtime_returns space_id token)
      as (info & log' & -> & Hinfo); simpl.
    destruct (truthy_dict info) eqn:Ht; simpl.
    + repeat split; try done; [|by left].
      intros [= ->]. done.
    + repeat split; try done; [|by right].
      intros _. f_equal. by apply Hinfo.
  - unfold list_user_spaces.
    destruct (list_spaces_cases hub (Some username) None 100 token)
      as [[results ->]|[e ->]]; simpl; repeat split; try done; by left.
Qed.

End ExitStatus.

(** * The statements at concrete inputs *)

Lemma bare_space_lacks_guarded :
  lacks (space_attrs bare_space)
    ["lastModified"; "private"; "likes"; "sdk"; "sdk_version"].
Proof.
  intros n Hn. set_unfold.
  destruct Hn as [->|[->|[->|[->|[->|[]]]]]]; reflexivity.
Defined.

Lemma bare_runtime_lacks_guarded :
  lacks (rt_attrs bare_runtime) ["hardware"; "requested_hardware"; "sleep_time"].
Proof.
  intros n Hn. set_unfold. destruct Hn as [->|[->|[->|[]]]]; reflexivity.
Defined.

(** The claim C2 as it is written fails on [bare_space]: none of the
    guarded attributes is in the response, the record is built, and its
    fields [private] and [likes] are [False] and [0], not [None]. *)
Lemma bare_space_record_not_all_null :
  lacks (space_attrs bare_space) ["lastModified"; "private"; "likes"; "sdk"]
  ∧ ∃ d, space_dict bare_space = (Return d, [])
         ∧ dict_get d "private" = Some (VBool false)
         ∧ dict_get d "likes" = Some (VInt 0)
         ∧ ¬ (∀ k, k ∈ ["last_modified"; "private"; "likes"; "sdk"] →
                   dict_get d k = Some VNone).
Proof.
  split.
  - intros n Hn. apply bare_space_lacks_guarded. set_unfold. tauto.
  - eexists. split; [vm_compute; reflexivity|].
    split; [reflexivity|]. split; [reflexivity|].
    intros H. specialize (H "private"). simpl in H.
    assert (Hin : "private" ∈ ["last_modified"; "private"; "likes"; "sdk"])
      by (set_unfold; tauto).
    specialize (H Hin). discriminate H.
Qed.

Lemma absent_guarded_fields_default_witness :
  (api_space_info (bare_hub None) "alice/demo" = inr bare_space
   ∧ lacks (space_attrs bare_space)
       ["lastModified"; "private"; "likes"; "sdk"; "sdk_version"]
   ∧ runtime_lacks bare_space ["stage"; "hardware"])
  ∧ get_space_info bare_hub "alice/demo" None =
      (Return (Some (bare_detail (VStr "alice/demo") (VStr "alice")
                       (VStr "0a1b2c"))),
       [Remote None (ReqSpaceInfo "alice/demo")])
  ∧ get_space_runtime bare_hub no_str "alice/demo" None =
      (Return (Some (bare_status (VStr "RUNNING") "")),
       [Remote None (ReqGetSpaceRuntime "alice/demo")]).
Proof.
  destruct (absent_guarded_fields_default bare_hub no_str None)
    as (_ & Hinfo & Hruntime).
  split; [split; [reflexivity | split; [exact bare_space_lacks_guarded | exact I]]|].
  split.
  - apply (Hinfo "alice/demo" bare_space);
      [reflexivity | reflexivity | reflexivity | reflexivity
      | exact bare_space_lacks_guarded | exact I].
  - apply (Hruntime "alice/demo" bare_runtime);
      [reflexivity | reflexivity | exact bare_runtime_lacks_guarded].
Defined.

Lemma list_spaces_swallows_failures_witness :
  api_list_spaces (failing_hub (HfHubHTTPError "503") None)
    (Some "alice") None 100 true = ([], Some (HfHubHTTPError "503"))
  ∧ ∃ e', list_user_spaces (failing_hub (HfHubHTTPError "503")) "alice" None =
      (Return [], [Remote None (ReqListSpaces (Some "alice") None 100 true);
                   Stderr ("Error listing spaces: " +:+ exn_str e')]).
Proof.
  split; [reflexivity|].
  destruct (list_spaces_swallows_failures
              (failing_hub (HfHubHTTPError "503")) None) as (_ & Huser & _).
  apply (Huser "alice" [] (HfHubHTTPError "503")). reflexivity.
Defined.

Lemma get_space_info_absent_on_failure_witness :
  (api_space_info (failing_hub (OtherException "timed out") None) "alice/demo"
     = inl (OtherException "timed out")
   ∧ ∀ msg, OtherException "timed out" ≠ HfHubHTTPError msg)
  ∧ get_space_info (failing_hub (OtherException "timed out")) "alice/demo" None
    = (Return None, [Remote None (ReqSpaceInfo "alice/demo");
                     Stderr "Unexpected error: timed out"]).
Proof.
  assert (Hother : ∀ msg, OtherException "timed out" ≠ HfHubHTTPError msg)
    by (intros msg; discriminate).
  split; [split; [reflexivity | exact Hother]|].
  destruct (get_space_info_absent_on_failure
              (failing_hub (OtherException "timed out")) "alice/demo" None)
    as (_ & Hany & _).
  apply (Hany (OtherException "timed out")); [reflexivity | exact Hother].
Defined.

(** The claim C7 as it is written fails twice.  On [--token ""] with
    [HF_TOKEN] set, the flag is given and the token resolved is the
    variable's.  With no flag, no [HF_TOKEN] and an empty
    [HUGGINGFACE_TOKEN], the warning is printed and the token is the empty
    string, not [None]. *)
Lemma empty_flag_is_not_selected :
  (resolve_token {[ "HF_TOKEN" := "hf_secret" ]} (Some "")
     = (Return (Some "hf_secret"), [])
   ∧ ¬ (∀ environ t, value (resolve_token environ (Some t)) = Return (Some t)))
  ∧ (resolve_token {[ "HUGGINGFACE_TOKEN" := "" ]} None
       = (Return (Some ""), token_warning)
     ∧ value (resolve_token {[ "HUGGINGFACE_TOKEN" := "" ]} None) ≠ Return None).
Proof.
  split; split.
  - reflexivity.
  - intros H. specialize (H {[ "HF_TOKEN" := "hf_secret" ]} "").
    vm_compute in H. discriminate H.
  - reflexivity.
  - vm_compute. discriminate.
Qed.

Lemma token_resolution_order_witness :
  ((Some "" = None ∨ Some "" = Some "")
   ∧ (({[ "HUGGINGFACE_TOKEN" := "hf_b" ]} : gmap string string) !! "HF_TOKEN"
        = None
      ∨ ({[ "HUGGINGFACE_TOKEN" := "hf_b" ]} : gmap string string) !! "HF_TOKEN"
        = Some "")
   ∧ ({[ "HUGGINGFACE_TOKEN" := "hf_b" ]} : gmap string string)
       !! "HUGGINGFACE_TOKEN" = Some "hf_b"
   ∧ "hf_b" ≠ "")
  ∧ resolve_token {[ "HUGGINGFACE_TOKEN" := "hf_b" ]} (Some "")
    = (Return (Some "hf_b"), []).
Proof.
  assert (Hflag : Some "" = None ∨ Some "" = Some "") by (right; reflexivity).
  assert (Hhf : ({[ "HUGGINGFACE_TOKEN" := "hf_b" ]} : gmap string string)
                  !! "HF_TOKEN" = None
                ∨ ({[ "HUGGINGFACE_TOKEN" := "hf_b" ]} : gmap string string)
                  !! "HF_TOKEN" = Some "") by (left; reflexivity).
  assert (Hne : "hf_b" ≠ "") by discriminate.
  split; [split; [exact Hflag | split; [exact Hhf | split; [reflexivity | exact Hne]]]|].
  destruct (token_resolution_order {[ "HUGGINGFACE_TOKEN" := "hf_b" ]} (Some ""))
    as (_ & _ & Hhug & _).
  apply (Hhug Hflag Hhf "hf_b"); [reflexivity | exact Hne].
Defined.

Lemma unguarded_fields_degrade_witness :
  ("sha" ∈ ["id"; "author"; "sha"]
   ∧ space_attrs space_without_sha !! "sha" = None
   ∧ space_without_sha ∈ [bare_space; space_without_sha]
   ∧ rt_attrs empty_runtime !! "stage" = None)
  ∧ (∃ e, list_spaces partial_hub None None 20 None =
       (Return [], [Remote None (ReqListSpaces None None 20 true);
                    Stderr ("Error listing spaces: " +:+ exn_str e)]))
  ∧ (∃ line, get_space_info partial_hub "alice/demo" None =
       (Return None, [Remote None (ReqSpaceInfo "alice/demo"); Stderr line]))
  ∧ (∃ line, get_space_runtime partial_hub no_str "alice/demo" None =
       (Return None, [Remote None (ReqGetSpaceRuntime "alice/demo");
                      Stderr line])).
Proof.
  assert (Hname : "sha" ∈ ["id"; "author"; "sha"]) by (set_unfold; tauto).
  assert (Hin : space_without_sha ∈ [bare_space; space_without_sha])
    by (set_unfold; tauto).
  split; [split; [exact Hname | split; [reflexivity | split; [exact Hin | reflexivity]]]|].
  destruct (unguarded_fields_degrade partial_hub no_str None)
    as (Hlist & Hinfo & Hruntime).
  split; [|split].
  - apply (Hlist "sha" space_without_sha None None 20
             [bare_space; space_without_sha] None);
      [exact Hname | reflexivity | reflexivity | exact Hin].
  - apply (Hinfo "sha" space_without_sha "alice/demo");
      [exact Hname | reflexivity | reflexivity].
  - apply (Hruntime empty_runtime "alice/demo"); reflexivity.
Defined.

(** ** Scenarios *)

(** [restart owner/space] with a token against a hub that answers with an
    HTTP error: one diagnostic, status 1. *)
Example restart_http_error :
  main (failing_hub (HfHubHTTPError "404 Client Error")) no_str ∅ no_json "usage"
    {| args_token := Some "hf_secret";
       args_command := Some (CmdRestart "owner/space") |}
  = (Exit 1, [Remote (Some "hf_secret") (ReqRestartSpace "owner/space");
              Stderr "Error restarting space: 404 Client Error"]).
Proof. reflexivity. Qed.

(** [info owner/space] on a space without a [runtime] attribute: the record
    is printed and the status is 0. *)
Example info_without_runtime :
  get_space_info bare_hub "owner/space" None
  = (Return (Some (bare_detail (VStr "alice/demo") (VStr "alice")
                     (VStr "0a1b2c"))),
     [Remote None (ReqSpaceInfo "owner/space")])
  ∧ exit_status
      (value (main bare_hub no_str ∅ no_json "usage"
                {| args_token := None;
                   args_command := Some (CmdInfo "owner/space") |})) = 0.
Proof. split; reflexivity. Qed.

(** [list] against a hub that is down: the empty list is printed after the
    warning and the diagnostic, and the status is 0. *)
Example list_hub_down :
  main (failing_hub (OtherException "connection refused")) no_str ∅
    (λ _, "[]") "usage"
    {| args_token := None; args_command := Some (CmdList None None 20) |}
  = (Return (),
     token_warning ++
     [Remote None (ReqListSpaces None None 20 true);
      Stderr "Error listing spaces: connection refused";
      Stdout "[]"])%list.
Proof. reflexivity. Qed.

(** * The operations as functions of the response *)

(** ** The record builders compute the projections *)

Lemma getattr_or_value cls (a : gmap string pyval) (n : string) d :
  getattr_or cls a n d = (Return (default d (a !! n)), []).
Proof.
  unfold getattr_or. destruct (a !! n) as [v|] eqn:H; simpl.
  - by rewrite (hasattr_present _ _ _ H), (getattr_present _ _ _ _ H).
  - by rewrite (hasattr_absent _ _ H).
Qed.

Lemma last_modified_of_value space :
  last_modified_of space = (Return (last_modified_text space), []).
Proof.
  unfold last_modified_of, last_modified_text.
  destruct (space_attrs space !! "lastModified") as [v|] eqn:H.
  - by rewrite (hasattr_present _ _ _ H), (getattr_present _ _ _ _ H).
  - by rewrite (hasattr_absent _ _ H).
Qed.

Lemma runtime_attr_or_none_value space n :
  runtime_attr_or_none space n = (Return (runtime_field space n), []).
Proof.
  unfold runtime_attr_or_none, runtime_field.
  destruct (space_runtime space) as [[r|]|]; simpl; try done.
  destruct (rt_attrs r !! n) as [v|] eqn:H; simpl.
  - by rewrite (hasattr_present _ _ _ H), (getattr_present _ _ _ _ H).
  - by rewrite (hasattr_absent _ _ H).
Qed.

Lemma space_dict_record space :
  match summary_record space with
  | Some d => space_dict space = (Return d, [])
  | None => ∃ e, space_dict space = (Raise e, [])
  end.
Proof.
  unfold summary_record, space_dict, getattr.
  rewrite last_modified_of_value, !getattr_or_value.
  destruct (space_attrs space !! "id"); simpl; [|by eexists].
  destruct (space_attrs space !! "author"); simpl; [|by eexists].
  destruct (space_attrs space !! "sha"); simpl; [done|by eexists].
Qed.

Lemma info_dict_record space :
  match detail_record space with
  | Some d => info_dict space = (Return d, [])
  | None => ∃ e, info_dict space = (Raise e, [])
  end.
Proof.
  unfold detail_record, info_dict, getattr.
  rewrite last_modified_of_value, !getattr_or_value,
    !runtime_attr_or_none_value.
  destruct (space_attrs space !! "id"); simpl; [|by eexists].
  destruct (space_attrs space !! "author"); simpl; [|by eexists].
  destruct (space_attrs space !! "sha"); simpl; [done|by eexists].
Qed.


Lemma summary_record_keys space d :
  summary_record space = Some d →
  keys d = ["id"; "author"; "sha"; "last_modified"; "private"; "likes"; "sdk"].
Proof.
  unfold summary_record.
  destruct (space_attrs space !! "id"); simpl; [|done].
  destruct (space_attrs space !! "author"); simpl; [|done].
  destruct (space_attrs space !! "sha"); simpl; [|done].
  by intros [= <-].
Qed.

Section Projections.

Context (hub : option string → HfApi) (str_runtime : SpaceRuntime → string).



(** The loop over a listing that ends normally returns the projections of
    all the items, in order, when each item has one, and raises
    otherwise. *)
Lemma for_spaces_record items failure results :
  match mapM summary_record items, failure with
  | Some ds, None =>
      for_spaces items failure results = (Return (results ++ ds)%list, [])
  | _, _ => ∃ e, for_spaces items failure results = (Raise e, [])
  end.
Proof.
  destruct (mapM summary_record items) as [ds|] eqn:Hmap.
  - destruct failure as [e|]; [apply for_spaces_failure|].
    apply for_spaces_built. apply mapM_Some_1 in Hmap.
    eapply Forall2_impl; [exact Hmap|]. intros space d Hd; simpl in Hd.
    pose proof (space_dict_record space) as Hrec. by rewrite Hd in Hrec.
  - apply mapM_None_1, Exists_exists in Hmap as (space & Hin & Hnone).
    assert (Hraise : ∃ e, space_dict space = (Raise e, [])).
    { pose proof (space_dict_record space) as Hrec. by rewrite Hnone in Hrec. }
    destruct (for_spaces_bad_item items failure results space Hin Hraise)
      as [e He].
    destruct failure; by exists e.
Qed.

Lemma list_spaces_run author search limit token items failure :
  api_list_spaces (hub token) author search limit true = (items, failure) →
  match mapM summary_record items, failure with
  | Some ds, None =>
      list_spaces hub author search limit token =
        (Return ds, [Remote token (ReqListSpaces author search limit true)])
  | _, _ =>
      ∃ e, list_spaces hub author search limit token =
        (Return [], [Remote token (ReqListSpaces author search limit true);
                     Stderr ("Error listing spaces: " +:+ exn_str e)])
  end.
Proof.
  intros Hapi.
  pose proof (for_spaces_record items failure []) as Hloop.
  destruct (mapM summary_record items) as [ds|], failure as [e0|].
  2: { unfold list_spaces. rewrite Hapi. unfold_monad; simpl.
       by rewrite Hloop. }
  all: destruct Hloop as [e He]; exists e; by eapply list_spaces_raised.
Qed.

(** [list_spaces] is all or nothing.  When the iteration ends normally and
    every item carries [id], [author] and [sha], the result is the list of
    the items' summaries, one per item and in the order yielded, with
    nothing printed.  In every other case the result is the empty list,
    after one diagnostic, whatever had been built by then. *)
Theorem list_spaces_all_or_nothing author search limit token items failure :
  api_list_spaces (hub token) author search limit true = (items, failure) →
  let req := Remote token (ReqListSpaces author search limit true) in
  (∀ ds, mapM summary_record items = Some ds → failure = None →
     list_spaces hub author search limit token = (Return ds, [req]))
  ∧ (mapM summary_record items = None ∨ failure ≠ None →
     ∃ e, list_spaces hub author search limit token =
       (Return [], [req; Stderr ("Error listing spaces: " +:+ exn_str e)])).
Proof.
  intros Hapi; simpl.
  pose proof (list_spaces_run author search limit token items failure Hapi)
    as Hrun.
  split.
  - intros ds Hds ->. by rewrite Hds in Hrun.
  - intros Hbad. destruct (mapM summary_record items) as [ds|].
    + destruct failure as [e0|]; [exact Hrun|]. by destruct Hbad.
    + by destruct failure.
Qed.

(** [list_spaces] does not cut the listing at [limit] itself and never
    returns part of one: a result that is not empty has one record per
    item the hub yielded, each with the seven keys in the order they are
    printed. *)
Theorem list_spaces_shape author search limit token items failure results :
  api_list_spaces (hub token) author search limit true = (items, failure) →
  value (list_spaces hub author search limit token) = Return results →
  results = []
  ∨ (length results = length items
     ∧ Forall (λ d, keys d = ["id"; "author"; "sha"; "last_modified";
                              "private"; "likes"; "sdk"]) results
     ∧ log_of (list_spaces hub author search limit token) =
         [Remote token (ReqListSpaces author search limit true)]).
Proof.
  intros Hapi Hval.
  pose proof (list_spaces_run author search limit token items failure Hapi)
    as Hcases.
  destruct (mapM summary_record items) as [ds|] eqn:Hmap.
  - destruct failure as [e0|].
    + destruct Hcases as [e He]. rewrite He in Hval. simpl in Hval.
      left. congruence.
    + rewrite Hcases in Hval |- *. simpl in Hval. injection Hval as <-.
      right. apply mapM_Some_1 in Hmap. repeat split.
      * symmetry. by eapply Forall2_length.
      * eapply Forall2_Forall_r; [exact Hmap|].
        apply Forall_forall. intros space _ d Hd. simpl in Hd.
        by eapply summary_record_keys.
  - assert (∃ e, list_spaces hub author search limit token =
        (Return [], [Remote token (ReqListSpaces author search limit true);
                     Stderr ("Error listing spaces: " +:+ exn_str e)]))
      as [e He] by (destruct failure; exact Hcases).
    rewrite He in Hval. simpl in Hval. left. congruence.
Qed.

End Projections.

(** ** The runs of the single-space operations *)

Section Runs.

Context (hub : option string → HfApi) (str_runtime : SpaceRuntime → string).

Lemma get_space_info_run space_id token space :
  api_space_info (hub token) space_id = inr space →
  match detail_record space with
  | Some d => get_space_info hub space_id token =
                (Return (Some d), [Remote token (ReqSpaceInfo space_id)])
  | None => ∃ line, get_space_info hub space_id token =
                (Return None, [Remote token (ReqSpaceInfo space_id);
                               Stderr line])
  end.
Proof.
  intros Hapi. pose proof (info_dict_record space) as Hrec.
  destruct (detail_record space) as [d|].
  - unfold get_space_info. rewrite Hapi. unfold_monad; simpl. by rewrite Hrec.
  - destruct Hrec as [e He]. by eapply get_space_info_raised.
Qed.

Lemma detail_record_last_modified space d :
  detail_record space = Some d →
  dict_get d "last_modified" = Some (last_modified_text space).
Proof.
  unfold detail_record.
  destruct (space_attrs space !! "id"); simpl; [|done].
  destruct (space_attrs space !! "author"); simpl; [|done].
  destruct (space_attrs space !! "sha"); simpl; [|done].
  by intros [= <-].
Qed.

(** In the record of [get_space_info], [last_modified] is null only when
    the response has no [lastModified] attribute.  An attribute that is
    there is rendered with [str], whatever it holds, so one holding [None]
    comes out as the text "None" and not as null. *)
Theorem last_modified_null_iff_missing space_id token space d :
  api_space_info (hub token) space_id = inr space →
  value (get_space_info hub space_id token) = Return (Some d) →
  (dict_get d "last_modified" = Some VNone
   ↔ space_attrs space !! "lastModified" = None)
  ∧ (∀ v, space_attrs space !! "lastModified" = Some v →
       dict_get d "last_modified" = Some (VStr (py_str v)))
  ∧ (space_attrs space !! "lastModified" = Some VNone →
       dict_get d "last_modified" = Some (VStr "None")).
Proof.
  intros Hapi Hval.
  pose proof (get_space_info_run space_id token space Hapi) as Hrun.
  destruct (detail_record space) as [d'|] eqn:Hd.
  - rewrite Hrun in Hval. simpl in Hval. injection Hval as <-.
    rewrite (detail_record_last_modified _ _ Hd).
    unfold last_modified_text.
    destruct (space_attrs space !! "lastModified") as [v|]; repeat split;
      try done.
    + by intros v0 [= <-].
    + by intros [= ->].
  - destruct Hrun as [line Hrun]. rewrite Hrun in Hval. discriminate.
Qed.

(** With a token that is not empty, [restart_space] makes exactly one
    call, the restart of that space with that token, and returns [True]
    exactly when the call returns; it then prints the confirmation on
    standard output.  A call that raises gives [False] and one line on
    standard error, whose prefix tells an HTTP error of the hub from any
    other exception. *)
Theorem restart_space_with_token space_id t :
  t ≠ "" →
  let req := Remote (Some t) (ReqRestartSpace space_id) in
  (∀ r, api_restart_space (hub (Some t)) space_id = inr r →
     restart_space hub space_id (Some t) =
       (Return true,
        [req; Stdout ("Successfully restarted space: " +:+ space_id)]))
  ∧ (∀ msg, api_restart_space (hub (Some t)) space_id
             = inl (HfHubHTTPError msg) →
     restart_space hub space_id (Some t) =
       (Return false, [req; Stderr ("Error restarting space: " +:+ msg)]))
  ∧ (∀ e, api_restart_space (hub (Some t)) space_id = inl e →
     (∀ msg, e ≠ HfHubHTTPError msg) →
     restart_space hub space_id (Some t) =
       (Return false, [req; Stderr ("Unexpected error: " +:+ exn_str e)]))
  ∧ (value (restart_space hub space_id (Some t)) = Return true
     ↔ ∃ r, api_restart_space (hub (Some t)) space_id = inr r).
Proof.
  intros Ht. apply truthy_Some_true in Ht. simpl.
  unfold restart_space. rewrite Ht. simpl. repeat split.
  - by intros r ->.
  - by intros msg ->.
  - intros e -> Hother. destruct e; try reflexivity. by destruct (Hother msg).
  - destruct (api_restart_space (hub (Some t)) space_id) as [e|r];
      [destruct e; discriminate | by exists r].
  - by intros [r ->].
Qed.

(** The same for [pause_space] and the pause call. *)
Theorem pause_space_with_token space_id t :
  t ≠ "" →
  let req := Remote (Some t) (ReqPauseSpace space_id) in
  (∀ r, api_pause_space (hub (Some t)) space_id = inr r →
     pause_space hub space_id (Some t) =
       (Return true,
        [req; Stdout ("Successfully paused space: " +:+ space_id)]))
  ∧ (∀ msg, api_pause_space (hub (Some t)) space_id
             = inl (HfHubHTTPError msg) →
     pause_space hub space_id (Some t) =
       (Return false, [req; Stderr ("Error pausing space: " +:+ msg)]))
  ∧ (∀ e, api_pause_space (hub (Some t)) space_id = inl e →
     (∀ msg, e ≠ HfHubHTTPError msg) →
     pause_space hub space_id (Some t) =
       (Return false, [req; Stderr ("Unexpected error: " +:+ exn_str e)]))
  ∧ (value (pause_space hub space_id (Some t)) = Return true
     ↔ ∃ r, api_pause_space (hub (Some t)) space_id = inr r).
Proof.
  intros Ht. apply truthy_Some_true in Ht. simpl.
  unfold pause_space. rewrite Ht. simpl. repeat split.
  - by intros r ->.
  - by intros msg ->.
  - intros e -> Hother. destruct e; try reflexivity. by destruct (Hother msg).
  - destruct (api_pause_space (hub (Some t)) space_id) as [e|r];
      [destruct e; discriminate | by exists r].
  - by intros [r ->].
Qed.

(** [get_space_runtime] answers a failed call with [None] and one line on
    standard error: "Error getting space runtime:" for an HTTP error of
    the hub, "Unexpected error:" for any other exception.  It never
    raises itself, and it needs no token: the call is made with whatever
    token it is given, also none. *)
Theorem get_space_runtime_absent_on_failure space_id token :
  let req := Remote token (ReqGetSpaceRuntime space_id) in
  (∀ msg, api_get_space_runtime (hub token) space_id
            = inl (HfHubHTTPError msg) →
     get_space_runtime hub str_runtime space_id token =
       (Return None, [req; Stderr ("Error getting space runtime: " +:+ msg)]))
  ∧ (∀ e, api_get_space_runtime (hub token) space_id = inl e →
     (∀ msg, e ≠ HfHubHTTPError msg) →
     get_space_runtime hub str_runtime space_id token =
       (Return None, [req; Stderr ("Unexpected error: " +:+ exn_str e)]))
  ∧ (∃ result,
       value (get_space_runtime hub str_runtime space_id token)
       = Return result).
Proof.
  simpl. unfold get_space_runtime. repeat split.
  - by intros msg ->.
  - intros e -> Hother. destruct e; try reflexivity. by destruct (Hother msg).
  - destruct (api_get_space_runtime (hub token) space_id) as [e|runtime].
    + destruct e; by eexists.
    + unfold_monad; simpl.
      destruct (quiet_cases _ (runtime_dict_quiet str_runtime runtime))
        as [[d ->]|[e ->]].
      * by eexists.
      * destruct e; by eexists.
Qed.

End Runs.

(** ** The runs of [main] *)

Section Main.

Context (hub : option string → HfApi) (str_runtime : SpaceRuntime → string)
  (environ : gmap string string) (json_dumps : json → string)
  (format_help : string).

Abbreviation run_main args :=
  (main hub str_runtime environ json_dumps format_help args).

(** Token resolution prints nothing when it finds a token and the two
    warning lines when it does not. *)
Lemma resolve_token_cases flag :
  ∃ token,
    (resolve_token environ flag = (Return token, []) ∧ truthy token = true)
    ∨ (resolve_token environ flag = (Return token, token_warning)
       ∧ truthy token = false).
Proof.
  unfold resolve_token. destruct (truthy flag) eqn:Hflag.
  - exists flag. by left.
  - unfold get_token.
    set (token := py_or (environ !! "HF_TOKEN") (environ !! "HUGGINGFACE_TOKEN")).
    exists token. destruct (truthy token) eqn:Ht; [by left | by right].
Qed.

Lemma get_space_info_cases space_id token :
  (∃ k v d, get_space_info hub space_id token =
     (Return (Some ((k, v) :: d)), [Remote token (ReqSpaceInfo space_id)]))
  ∨ (∃ line, get_space_info hub space_id token =
     (Return None, [Remote token (ReqSpaceInfo space_id); Stderr line])).
Proof.
  destruct (api_space_info (hub token) space_id) as [e|space] eqn:Hapi.
  - right. unfold get_space_info. rewrite Hapi. destruct e; by eexists.
  - pose proof (get_space_info_run hub space_id token space Hapi) as Hrun.
    unfold detail_record in Hrun.
    destruct (space_attrs space !! "id"); simpl in Hrun; [|by right].
    destruct (space_attrs space !! "author"); simpl in Hrun; [|by right].
    destruct (space_attrs space !! "sha"); simpl in Hrun; [|by right].
    left. by eexists _, _, _.
Qed.

Lemma get_space_runtime_cases space_id token :
  (∃ k v d, get_space_runtime hub str_runtime space_id token =
     (Return (Some ((k, v) :: d)),
      [Remote token (ReqGetSpaceRuntime space_id)]))
  ∨ (∃ line, get_space_runtime hub str_runtime space_id token =
     (Return None, [Remote token (ReqGetSpaceRuntime space_id); Stderr line])).
Proof.
  unfold get_space_runtime.
  destruct (api_get_space_runtime (hub token) space_id) as [e|runtime].
  - right. destruct e; by eexists.
  - unfold_monad; simpl. unfold runtime_dict, getattr.
    rewrite !getattr_or_value.
    destruct (rt_attrs runtime !! "stage"); simpl.
    + left. by eexists _, _, _.
    + right. by eexists.
Qed.

Lemma restart_space_cases space_id token :
  (truthy token = false
   ∧ ∃ line, restart_space hub space_id token = (Return false, [Stderr line]))
  ∨ (truthy token = true
     ∧ ((∃ line, restart_space hub space_id token =
           (Return true, [Remote token (ReqRestartSpace space_id);
                          Stdout line]))
        ∨ (∃ line, restart_space hub space_id token =
           (Return false, [Remote token (ReqRestartSpace space_id);
                           Stderr line])))).
Proof.
  unfold restart_space. destruct (truthy token); simpl.
  - right. split; [done|].
    destruct (api_restart_space (hub token) space_id) as [e|r].
    + right. destruct e; by eexists.
    + left. by eexists.
  - left. split; [done|]. by eexists.
Qed.

Lemma pause_space_cases space_id token :
  (truthy token = false
   ∧ ∃ line, pause_space hub space_id token = (Return false, [Stderr line]))
  ∨ (truthy token = true
     ∧ ((∃ line, pause_space hub space_id token =
           (Return true, [Remote token (ReqPauseSpace space_id);
                          Stdout line]))
        ∨ (∃ line, pause_space hub space_id token =
           (Return false, [Remote token (ReqPauseSpace space_id);
                           Stderr line])))).
Proof.
  unfold pause_space. destruct (truthy token); simpl.
  - right. split; [done|].
    destruct (api_pause_space (hub token) space_id) as [e|r].
    + right. destruct e; by eexists.
    + left. by eexists.
  - left. split; [done|]. by eexists.
Qed.

(** Splits a run of [main] with a subcommand into the ways token
    resolution and the operation can end. *)
Ltac main_cases flag cmd token :=
  destruct (resolve_token_cases flag) as [token [[Hres Ht]|[Hres Ht]]];
  exists token; eexists; (split; [exact Hres|]);
  unfold main, value, log_of; simpl; rewrite Hres; unfold_monad; simpl;
  (destruct cmd as [author search limit|space_id|space_id|space_id|space_id
                  |username];
  [ destruct (list_spaces_cases hub author search limit token)
      as [[results ->]|[e ->]]
  | destruct (get_space_info_cases space_id token)
      as [(k & v & d & ->)|[line ->]]
  | destruct (restart_space_cases space_id token)
      as [[Ht' [line ->]]|[Ht' [[line ->]|[line ->]]]]
  | destruct (pause_space_cases space_id token)
      as [[Ht' [line ->]]|[Ht' [[line ->]|[line ->]]]]
  | destruct (get_space_runtime_cases space_id token)
      as [(k & v & d & ->)|[line ->]]
  | unfold list_user_spaces;
    destruct (list_spaces_cases hub (Some username) None 100 token)
      as [[results ->]|[e ->]] ]);
  simpl; rewrite ?Ht; try congruence.

(** A run of [main] with a subcommand makes at most one remote call: the
    call of that subcommand, with the token [main] resolved.  It makes
    none exactly when the subcommand is [restart] or [pause] and no
    non-empty token was resolved. *)
Theorem main_remote_calls flag cmd :
  ∃ token log,
    resolve_token environ flag = (Return token, log)
    ∧ remote_events
        (log_of (run_main {| args_token := flag; args_command := Some cmd |}))
      = if is_mutating cmd && negb (truthy token) then []
        else [Remote token (request_of cmd)].
Proof. main_cases flag cmd token; reflexivity. Qed.


(** [main] never ends on an exception nobody caught: it returns, or exits
    with status 0 or 1. *)
Theorem main_never_raises args :
  value (run_main args) = Return ()
  ∨ value (run_main args) = Exit 0
  ∨ value (run_main args) = Exit 1.
Proof.
  destruct args as [flag [cmd|]]; [|by right; right].
  assert (∃ (token : option string) (log : list event),
            resolve_token environ flag = (Return token, log)
            ∧ (value (run_main {| args_token := flag;
                                  args_command := Some cmd |}) = Return ()
               ∨ value (run_main {| args_token := flag;
                                    args_command := Some cmd |}) = Exit 0
               ∨ value (run_main {| args_token := flag;
                                    args_command := Some cmd |}) = Exit 1))
    as (_ & _ & _ & H); [|exact H].
  main_cases flag cmd token; auto.
Qed.

(** [restart] and [pause] from the command line with no token anywhere
    (no non-empty flag, [HF_TOKEN] or [HUGGINGFACE_TOKEN]): the two warning
    lines and the error line on standard error, no remote call, status
    1. *)
Theorem mutating_command_without_token flag space_id :
  flag = None ∨ flag = Some "" →
  environ !! "HF_TOKEN" = None ∨ environ !! "HF_TOKEN" = Some "" →
  environ !! "HUGGINGFACE_TOKEN" = None
    ∨ environ !! "HUGGINGFACE_TOKEN" = Some "" →
  run_main {| args_token := flag; args_command := Some (CmdRestart space_id) |}
    = (Exit 1, token_warning ++
               [Stderr "Error: Token is required to restart a space."])%list
  ∧ run_main {| args_token := flag; args_command := Some (CmdPause space_id) |}
    = (Exit 1, token_warning ++
               [Stderr "Error: Token is required to pause a space."])%list.
Proof.
  intros Hflag Hhf Hhug. apply truthy_false in Hflag, Hhf, Hhug.
  destruct (get_token_cases environ) as (_ & _ & Hnone).
  specialize (Hnone Hhf Hhug).
  unfold main, resolve_token; simpl. rewrite Hflag, Hnone.
  unfold restart_space, pause_space. unfold_monad; simpl.
  by rewrite Hhug.
Qed.

End Main.

(** ** The same at concrete inputs *)



Lemma list_spaces_all_or_nothing_witness :
  (api_list_spaces (full_hub None) None None 2 true
     = ([bare_space; full_space; bare_space], None)
   ∧ api_list_spaces (partial_hub None) None None 2 true
     = ([bare_space; space_without_sha], None)
   ∧ mapM summary_record [bare_space; space_without_sha] = None)
  ∧ (∃ ds, mapM summary_record [bare_space; full_space; bare_space] = Some ds
           ∧ length ds = 3%nat
           ∧ list_spaces full_hub None None 2 None =
               (Return ds, [Remote None (ReqListSpaces None None 2 true)]))
  ∧ (∃ e, list_spaces partial_hub None None 2 None =
       (Return [], [Remote None (ReqListSpaces None None 2 true);
                    Stderr ("Error listing spaces: " +:+ exn_str e)])).
Proof.
  split; [repeat split; reflexivity|]. split.
  - eexists. split; [reflexivity|]. split; [reflexivity|].
    apply (proj1 (list_spaces_all_or_nothing full_hub None None 2 None
                    [bare_space; full_space; bare_space] None eq_refl));
      reflexivity.
  - apply (proj2 (list_spaces_all_or_nothing partial_hub None None 2 None
                    [bare_space; space_without_sha] None eq_refl)).
    left. reflexivity.
Defined.

Lemma list_spaces_shape_witness :
  (api_list_spaces (full_hub None) None None 2 true
     = ([bare_space; full_space; bare_space], None)
   ∧ ∃ results, value (list_spaces full_hub None None 2 None) = Return results
                ∧ results ≠ [])
  ∧ ∃ results, value (list_spaces full_hub None None 2 None) = Return results
      ∧ (results = []
         ∨ (length results = 3%nat
            ∧ Forall (λ d, keys d = ["id"; "author"; "sha"; "last_modified";
                                     "private"; "likes"; "sdk"]) results
            ∧ log_of (list_spaces full_hub None None 2 None) =
                [Remote None (ReqListSpaces None None 2 true)])).
Proof.
  split.
  - split; [reflexivity|]. eexists. split; [reflexivity|]. discriminate.
  - eexists. split; [reflexivity|].
    apply (list_spaces_shape full_hub None None 2 None
             [bare_space; full_space; bare_space] None _ eq_refl eq_refl).
Defined.

Lemma last_modified_null_iff_missing_witness :
  (api_space_info (full_hub None) "bob/app" = inr full_space
   ∧ space_attrs full_space !! "lastModified" = Some VNone)
  ∧ ∃ d, value (get_space_info full_hub "bob/app" None) = Return (Some d)
         ∧ dict_get d "last_modified" = Some (VStr "None").
Proof.
  split; [split; reflexivity|].
  eexists. split; [reflexivity|].
  destruct (last_modified_null_iff_missing full_hub "bob/app" None full_space _
              eq_refl eq_refl) as (_ & _ & Hnone).
  apply Hnone. reflexivity.
Defined.

Lemma restart_space_with_token_witness :
  ("hf_secret" ≠ ""
   ∧ api_restart_space (bare_hub (Some "hf_secret")) "alice/demo"
     = inr bare_runtime)
  ∧ restart_space bare_hub "alice/demo" (Some "hf_secret") =
      (Return true,
       [Remote (Some "hf_secret") (ReqRestartSpace "alice/demo");
        Stdout "Successfully restarted space: alice/demo"]).
Proof.
  assert (Hne : "hf_secret" ≠ "") by discriminate.
  split; [split; [exact Hne | reflexivity]|].
  destruct (restart_space_with_token bare_hub "alice/demo" "hf_secret" Hne)
    as (Hok & _).
  apply (Hok bare_runtime). reflexivity.
Defined.

Lemma pause_space_with_token_witness :
  ("hf_secret" ≠ ""
   ∧ api_pause_space (failing_hub (HfHubHTTPError "403 Forbidden")
                        (Some "hf_secret")) "alice/demo"
     = inl (HfHubHTTPError "403 Forbidden"))
  ∧ pause_space (failing_hub (HfHubHTTPError "403 Forbidden")) "alice/demo"
      (Some "hf_secret") =
      (Return false,
       [Remote (Some "hf_secret") (ReqPauseSpace "alice/demo");
        Stderr "Error pausing space: 403 Forbidden"]).
Proof.
  assert (Hne : "hf_secret" ≠ "") by discriminate.
  split; [split; [exact Hne | reflexivity]|].
  destruct (pause_space_with_token
              (failing_hub (HfHubHTTPError "403 Forbidden"))
              "alice/demo" "hf_secret" Hne) as (_ & Hhttp & _).
  apply (Hhttp "403 Forbidden"). reflexivity.
Defined.

Lemma get_space_runtime_absent_on_failure_witness :
  (api_get_space_runtime (failing_hub (OtherException "timed out") None)
     "alice/demo" = inl (OtherException "timed out")
   ∧ ∀ msg, OtherException "timed out" ≠ HfHubHTTPError msg)
  ∧ get_space_runtime (failing_hub (OtherException "timed out")) no_str
      "alice/demo" None =
      (Return None, [Remote None (ReqGetSpaceRuntime "alice/demo");
                     Stderr "Unexpected error: timed out"]).
Proof.
  assert (Hother : ∀ msg, OtherException "timed out" ≠ HfHubHTTPError msg)
    by (intros msg; discriminate).
  split; [split; [reflexivity | exact Hother]|].
  destruct (get_space_runtime_absent_on_failure
              (failing_hub (OtherException "timed out")) no_str
              "alice/demo" None) as (_ & Hany & _).
  apply (Hany (OtherException "timed out")); [reflexivity | exact Hother].
Defined.

Lemma mutating_command_without_token_witness :
  ((Some "" = None ∨ Some "" = Some "")
   ∧ (({[ "HF_TOKEN" := "" ]} : gmap string string) !! "HF_TOKEN" = None
      ∨ ({[ "HF_TOKEN" := "" ]} : gmap string string) !! "HF_TOKEN" = Some "")
   ∧ (({[ "HF_TOKEN" := "" ]} : gmap string string) !! "HUGGINGFACE_TOKEN"
        = None
      ∨ ({[ "HF_TOKEN" := "" ]} : gmap string string) !! "HUGGINGFACE_TOKEN"
        = Some ""))
  ∧ main bare_hub no_str {[ "HF_TOKEN" := "" ]} no_json "usage"
      {| args_token := Some "";
         args_command := Some (CmdRestart "alice/demo") |}
    = (Exit 1, token_warning ++
               [Stderr "Error: Token is required to restart a space."])%list.
Proof.
  assert (Hflag : Some "" = None ∨ Some "" = Some "") by (right; reflexivity).
  assert (Hhf : ({[ "HF_TOKEN" := "" ]} : gmap string string) !! "HF_TOKEN"
                  = None
                ∨ ({[ "HF_TOKEN" := "" ]} : gmap string string) !! "HF_TOKEN"
                  = Some "") by (right; reflexivity).
  assert (Hhug : ({[ "HF_TOKEN" := "" ]} : gmap string string)
                   !! "HUGGINGFACE_TOKEN" = None
                 ∨ ({[ "HF_TOKEN" := "" ]} : gmap string string)
                   !! "HUGGINGFACE_TOKEN" = Some "") by (left; reflexivity).
  split; [split; [exact Hflag | split; [exact Hhf | exact Hhug]]|].
  exact (proj1 (mutating_command_without_token bare_hub no_str
                  {[ "HF_TOKEN" := "" ]} no_json "usage" (Some "")
                  "alice/demo" Hflag Hhf Hhug)).
Defined.
